(** * VoteUp: the wallet session of [src/contexts/Web3Context.tsx]

    A shallow embedding of the [Web3Provider] component: its five React state
    cells, the three operations it exports ([connectWallet],
    [disconnectWallet], [switchToSepolia]), the two wallet event handlers
    ([handleAccountsChanged], [handleChainChanged]) and the [autoConnect]
    probe run on mount.

    Asynchronous functions are embedded as resumptions ([Task]): a finite tree
    whose nodes are the synchronous effects of the code (state setters,
    toasts, console output) and its [await]ed wallet calls, each with one
    continuation per way the promise can settle.  Two semantics are given to
    a task: [run] answers every wallet call at once from an [Adapter], and
    [step] leaves calls pending so that other operations and wallet events
    interleave with them. *)

From Stdlib Require Import ZArith List String Ascii Bool Lia.
Import ListNotations.
Local Open Scope string_scope.
Local Open Scope Z_scope.

(** ** JavaScript values used by the component *)

Module Js.

(** The [number]s the component can hold: results of [Number(bigint)] and of
    [parseInt(_, 16)].  Both are integer valued, infinite or [NaN]; the sign
    of zero is not kept ([-0] and [0] are [===] in JavaScript). *)
Inductive number : Type :=
| NaN
| Infinity (negative : bool)
| Finite (z : Z).

(** Magnitude of the double nearest to the integer [m >= 0], ties to even:
    integers below 2^53 are kept, larger ones keep 53 significant bits. *)
Definition round_magnitude (m : Z) : Z :=
  if m <? 2 ^ 53 then m
  else
    let e := Z.log2 m - 52 in
    let q := m / 2 ^ e in
    let r := m mod 2 ^ e in
    let half := 2 ^ (e - 1) in
    let q' := if (half <? r) || ((r =? half) && Z.odd q) then q + 1 else q in
    q' * 2 ^ e.

(** The Number value of a mathematical integer ([Number(x)] for a bigint [x],
    and the last step of [parseInt]). *)
Definition of_Z (z : Z) : number :=
  let m := round_magnitude (Z.abs z) in
  if 2 ^ 1024 <=? m then Infinity (z <? 0)
  else Finite (Z.sgn z * m).

(** [a === b] on numbers: [NaN] differs from everything, itself included. *)
Definition strict_eq (a b : number) : bool :=
  match a, b with
  | Finite x, Finite y => x =? y
  | Infinity s, Infinity t => Bool.eqb s t
  | _, _ => false
  end.

Definition strict_neq (a b : number) : bool := negb (strict_eq a b).

(** Code units skipped by [parseInt] before the number: the white space and
    line terminators among the code units below 256. *)
Definition is_white_space (c : ascii) : bool :=
  let n := nat_of_ascii c in
  ((9 <=? n) && (n <=? 13) || (n =? 32) || (n =? 160))%nat.

Fixpoint trim_start (s : string) : string :=
  match s with
  | String c rest => if is_white_space c then trim_start rest else s
  | EmptyString => s
  end.

(** Value of a code unit as a digit in radix 16. *)
Definition hex_digit (c : ascii) : option Z :=
  let n := Z.of_nat (nat_of_ascii c) in
  if (48 <=? n) && (n <=? 57) then Some (n - 48)
  else if (97 <=? n) && (n <=? 102) then Some (n - 87)
  else if (65 <=? n) && (n <=? 70) then Some (n - 55)
  else None.

(** Reads the longest prefix of hexadecimal digits; [acc] is [None] until a
    digit has been read. *)
Fixpoint read_hex (acc : option Z) (s : string) : option Z :=
  match s with
  | String c rest =>
      match hex_digit c with
      | Some d =>
          read_hex (Some (16 * match acc with Some a => a | None => 0 end + d)) rest
      | None => acc
      end
  | EmptyString => acc
  end.

Definition strip_sign (s : string) : bool * string :=
  match s with
  | String "-" rest => (true, rest)
  | String "+" rest => (false, rest)
  | _ => (false, s)
  end.

Definition strip_hex_prefix (s : string) : string :=
  match s with
  | String "0" (String "x" rest) => rest
  | String "0" (String "X" rest) => rest
  | _ => s
  end.

(** [parseInt(s, 16)]. *)
Definition parseInt16 (s : string) : number :=
  let (negative, s1) := strip_sign (trim_start s) in
  match read_hex None (strip_hex_prefix s1) with
  | None => NaN
  | Some mathInt => of_Z (if negative then - mathInt else mathInt)
  end.

Definition hex_char (d : Z) : ascii :=
  ascii_of_nat (Z.to_nat (if d <? 10 then 48 + d else 87 + d)).

(** Digits of [n], most significant first, at most [fuel] of them. *)
Fixpoint hex_digits (fuel : nat) (n : Z) (acc : string) : string :=
  match fuel with
  | O => acc
  | S fuel' =>
      let acc' := String (hex_char (n mod 16)) acc in
      if n / 16 =? 0 then acc' else hex_digits fuel' (n / 16) acc'
  end.

(** [n.toString(16)] for an integer [n >= 0]. *)
Definition toString16 (n : Z) : string :=
  hex_digits (S (Z.to_nat (Z.log2 n))) n "".

(** The values a rejected promise or a [throw] carries, as far as the
    component inspects them: the [code] property when it is a number ([None]
    for an error without [code] or with one of another type).  A rejection
    with [null] or [undefined], on which reading [code] would throw, is left
    out. *)
Record error : Type := { code : option Z }.

(** [e.code === n]. *)
Definition code_is (e : error) (n : Z) : bool :=
  match code e with
  | Some c => c =? n
  | None => false
  end.

End Js.

(** ** Constants *)

Definition SEPOLIA_CHAIN_ID : Z := 11155111.
Definition SEPOLIA_RPC_URL : string :=
  "https://eth-sepolia.g.alchemy.com/v2/d8cu_4ZQnwo5G_j-l7xXLA0IgBwzrhp9".


(** ** Wallet objects and calls *)

(** [window.ethereum], the object a wallet extension injects. *)
Inductive Ethereum : Type := InjectedWallet (id : nat).

(** [new BrowserProvider(window.ethereum)]. *)
Inductive BrowserProvider : Type := new_BrowserProvider (ethereum : Ethereum).

(** The signer handed out by [provider.getSigner()]. *)
Inductive JsonRpcSigner : Type := SignerHandle (id : nat).

(** The object [provider.getNetwork()] resolves to; its [chainId] is a bigint. *)
Record Network : Type := { network_chainId : Z }.

Record NativeCurrency : Type := {
  currency_name : string;
  currency_symbol : string;
  currency_decimals : Z
}.

(** The parameter object of [wallet_addEthereumChain]. *)
Record AddChainParams : Type := {
  add_chainId : string;
  add_chainName : string;
  add_nativeCurrency : NativeCurrency;
  add_rpcUrls : list string;
  add_blockExplorerUrls : list string
}.

(** The awaited calls of the component. *)
Inductive call : Type :=
| send_eth_requestAccounts (provider : BrowserProvider)
| getSigner (provider : BrowserProvider)
| getNetwork (provider : BrowserProvider)
| request_wallet_switchEthereumChain (chainId : string)
| request_wallet_addEthereumChain (params : AddChainParams)
| request_eth_accounts.

(** What each call resolves to. *)
Definition answer (c : call) : Type :=
  match c with
  | send_eth_requestAccounts _ => list string
  | getSigner _ => JsonRpcSigner
  | getNetwork _ => Network
  | request_wallet_switchEthereumChain _ => unit
  | request_wallet_addEthereumChain _ => unit
  | request_eth_accounts => list string
  end.

(** A settled promise. *)
Inductive settled (A : Type) : Type :=
| Fulfilled (value : A)
| Rejected (reason : Js.error).
Arguments Fulfilled {A} value.
Arguments Rejected {A} reason.

(** ** Session state and observable effects *)

(** The five [useState] cells of [Web3Provider]. *)
Record Session : Type := {
  provider : option BrowserProvider;
  signer : option JsonRpcSigner;
  account : option string;
  chainId : option Js.number;
  isConnected : bool
}.

(** The state the component mounts with. *)
Definition initial : Session :=
  {| provider := None; signer := None; account := None; chainId := None;
     isConnected := false |}.

Inductive toast_kind : Type := success | error | loading.

(** The synchronous effects of the component. *)
Inductive effect : Type :=
| setProvider (v : option BrowserProvider)
| setSigner (v : option JsonRpcSigner)
| setAccount (v : option string)
| setChainId (v : option Js.number)
| setIsConnected (v : bool)
| toast (kind : toast_kind) (message : string)
| console_error (label : string) (reason : Js.error).

(** What a run leaves behind outside the session, in the order it happened. *)
Inductive event : Type :=
| Notified (kind : toast_kind) (message : string)
| Logged (label : string) (reason : Js.error)
| Requested (c : call).

Definition perform (e : effect) (s : Session) : Session :=
  match e with
  | setProvider v =>
      {| provider := v; signer := signer s; account := account s;
         chainId := chainId s; isConnected := isConnected s |}
  | setSigner v =>
      {| provider := provider s; signer := v; account := account s;
         chainId := chainId s; isConnected := isConnected s |}
  | setAccount v =>
      {| provider := provider s; signer := signer s; account := v;
         chainId := chainId s; isConnected := isConnected s |}
  | setChainId v =>
      {| provider := provider s; signer := signer s; account := account s;
         chainId := v; isConnected := isConnected s |}
  | setIsConnected v =>
      {| provider := provider s; signer := signer s; account := account s;
         chainId := chainId s; isConnected := v |}
  | toast _ _ | console_error _ _ => s
  end.

Definition emitted (e : effect) : list event :=
  match e with
  | toast kind message => [Notified kind message]
  | console_error label reason => [Logged label reason]
  | _ => []
  end.

(** ** Tasks *)

(** Code of the component in continuation form: [Do] is a synchronous
    statement, [Await] a wallet call whose promise is awaited, with the code
    that follows each outcome (the [catch] handler of the enclosing [try] for
    a rejection). *)
Inductive Task : Type :=
| Return
| Do (e : effect) (next : Task)
| Await (c : call) (k : settled (answer c) -> Task).

(** Statements in sequence. *)
Fixpoint Seq (es : list effect) (next : Task) : Task :=
  match es with
  | [] => next
  | e :: es' => Do e (Seq es' next)
  end.

(** ** The component *)

Definition sepolia_chainId_hex : string := "0x" ++ Js.toString16 SEPOLIA_CHAIN_ID.

Definition sepolia_params : AddChainParams :=
  {| add_chainId := sepolia_chainId_hex;
     add_chainName := "Sepolia Test Network";
     add_nativeCurrency :=
       {| currency_name := "Sepolia Ether"; currency_symbol := "ETH";
          currency_decimals := 18 |};
     add_rpcUrls := [SEPOLIA_RPC_URL];
     add_blockExplorerUrls := ["https://sepolia.etherscan.io/"] |}.

(** [switchToSepolia], followed by [next].  Without [window.ethereum] the
    expression [window.ethereum.request] throws a [TypeError] inside the
    [try]; the handler finds no [code] on it. *)
Definition switchToSepolia (ethereum : option Ethereum) (next : Task) : Task :=
  let catch (switchError : Js.error) :=
    if Js.code_is switchError 4902 then
      Await (request_wallet_addEthereumChain sepolia_params) (fun added =>
        match added with
        | Fulfilled _ => next
        | Rejected addError => Do (toast error "Failed to add Sepolia network") next
        end)
    else Do (toast error "Failed to switch to Sepolia network") next in
  match ethereum with
  | Some _ =>
      Await (request_wallet_switchEthereumChain sepolia_chainId_hex) (fun switched =>
        match switched with
        | Fulfilled _ => next
        | Rejected switchError => catch switchError
        end)
  | None => catch {| Js.code := None |}
  end.

(** [connectWallet], followed by [next]. *)
Definition connectWallet (ethereum : option Ethereum) (next : Task) : Task :=
  let catch (reason : Js.error) :=
    Seq [console_error "Failed to connect wallet:" reason;
         toast error "Failed to connect wallet. Please try again."] next in
  match ethereum with
  | Some eth =>
      let provider := new_BrowserProvider eth in
      Await (send_eth_requestAccounts provider) (fun requested =>
        match requested with
        | Rejected reason => catch reason
        | Fulfilled [] => next
        | Fulfilled (account0 :: _) =>
            Await (getSigner provider) (fun got_signer =>
              match got_signer with
              | Rejected reason => catch reason
              | Fulfilled signer =>
                  Await (getNetwork provider) (fun got_network =>
                    match got_network with
                    | Rejected reason => catch reason
                    | Fulfilled network =>
                        if Js.strict_neq (Js.of_Z (network_chainId network))
                                         (Js.Finite SEPOLIA_CHAIN_ID)
                        then
                          Do (toast error "Please switch to Sepolia Testnet.")
                             (switchToSepolia ethereum next)
                        else
                          Seq [setProvider (Some provider);
                               setSigner (Some signer);
                               setAccount (Some account0);
                               setChainId (Some (Js.of_Z (network_chainId network)));
                               setIsConnected true;
                               toast success "Wallet connected successfully!"] next
                    end)
              end)
        end)
  | None =>
      Do (toast error "MetaMask is not installed. Please install MetaMask to continue.")
         next
  end.

(** [disconnectWallet], followed by [next]. *)
Definition disconnectWallet (next : Task) : Task :=
  Seq [setProvider None; setSigner None; setAccount None; setChainId None;
       setIsConnected false; toast success "Wallet disconnected"] next.

(** The [accountsChanged] listener. *)
Definition handleAccountsChanged (accounts : list string) : Task :=
  match accounts with
  | [] => disconnectWallet Return
  | account0 :: _ => Do (setAccount (Some account0)) Return
  end.

(** The [chainChanged] listener. *)
Definition handleChainChanged (chainIdHex : string) : Task :=
  let newChainId := Js.parseInt16 chainIdHex in
  Do (setChainId (Some newChainId))
     (if Js.strict_neq newChainId (Js.Finite SEPOLIA_CHAIN_ID) then
        Do (toast error "Please switch to Sepolia Testnet.") (disconnectWallet Return)
      else Return).

(** The [autoConnect] probe of the mount effect. *)
Definition autoConnect (ethereum : option Ethereum) : Task :=
  match ethereum with
  | Some _ =>
      Do (toast loading "Attempting auto-connect...")
         (Await request_eth_accounts (fun queried =>
            match queried with
            | Rejected reason => Do (console_error "Auto-connect failed:" reason) Return
            | Fulfilled [] => Return
            | Fulfilled (_ :: _) => connectWallet ethereum Return
            end))
  | None => Return
  end.

(** ** Semantics *)

(** A wallet, as far as one run can tell: how it settles each call. *)
Definition Adapter : Type := forall c : call, settled (answer c).

(** Runs [t] from session [s] with every awaited call settled by [a] as soon
    as it is made; returns the final session and what happened, in order. *)
Fixpoint run (a : Adapter) (t : Task) (s : Session) : Session * list event :=
  match t with
  | Return => (s, [])
  | Do e next =>
      let (s', tr) := run a next (perform e s) in (s', (emitted e ++ tr)%list)
  | Await c k =>
      let (s', tr) := run a (k (a c)) s in (s', Requested c :: tr)
  end.

(** A call that has been made and whose promise has not settled yet. *)
Record Suspended : Type := {
  waiting_on : call;
  resume : settled (answer waiting_on) -> Task
}.

(** Runs [t] up to its next [await]. *)
Fixpoint advance (t : Task) (s : Session)
  : Session * list event * option Suspended :=
  match t with
  | Return => (s, [], None)
  | Do e next =>
      let '(s', tr, p) := advance next (perform e s) in (s', (emitted e ++ tr)%list, p)
  | Await c k => (s, [Requested c], Some {| waiting_on := c; resume := k |})
  end.

(** The component at some instant: its state, the asynchronous calls in
    flight, and everything emitted so far. *)
Record System : Type := {
  session : Session;
  in_flight : list Suspended;
  history : list event
}.

(** Starts [t] in [w]: it runs to its first [await] and is then in flight. *)
Definition spawn (t : Task) (before after : list Suspended) (w : System) : System :=
  let '(s', tr, p) := advance t (session w) in
  {| session := s';
     in_flight := (before ++ match p with Some q => q :: after | None => after end)%list;
     history := (history w ++ tr)%list |}.

(** The component after mounting in a page whose [window.ethereum] is
    [ethereum]: initial state, [autoConnect] started. *)
Definition mount (ethereum : option Ethereum) : System :=
  spawn (autoConnect ethereum) [] []
        {| session := initial; in_flight := []; history := [] |}.

(** The code that runs on its own turn of the event loop: the three exported
    operations, called by the application, and the two wallet listeners.  The
    listeners are installed by the mount effect only when [window.ethereum]
    exists; the relation lets them fire in any case, which only adds
    behaviours.  They call the [disconnectWallet] of the first render, whose
    setters are the same on every render. *)
Inductive entry : Task -> Prop :=
| entry_connectWallet ethereum : entry (connectWallet ethereum Return)
| entry_disconnectWallet : entry (disconnectWallet Return)
| entry_switchToSepolia ethereum : entry (switchToSepolia ethereum Return)
| entry_accountsChanged accounts : entry (handleAccountsChanged accounts)
| entry_chainChanged chainIdHex : entry (handleChainChanged chainIdHex).

(** What can happen next: an entry point starts and runs to its first
    [await], or a pending promise settles and its task runs on to the next. *)
Inductive step : System -> System -> Prop :=
| step_enter t w :
    entry t -> step w (spawn t (in_flight w) [] w)
| step_settle s before p after h (outcome : settled (answer (waiting_on p))) :
    step {| session := s; in_flight := (before ++ p :: after)%list; history := h |}
         (spawn (resume p outcome) before after
                {| session := s; in_flight := (before ++ p :: after)%list;
                   history := h |}).

Inductive reachable : System -> Prop :=
| reachable_mount ethereum : reachable (mount ethereum)
| reachable_step w w' : reachable w -> step w w' -> reachable w'.

Inductive steps : System -> System -> Prop :=
| steps_done w : steps w w
| steps_next w w' w'' : step w w' -> steps w' w'' -> steps w w''.

(** [w] after [t] has run in it with every call settled by [a] at once. *)
Definition atomically (a : Adapter) (t : Task) (w : System) : System :=
  {| session := fst (run a t (session w));
     in_flight := in_flight w;
     history := (history w ++ snd (run a t (session w)))%list |}.

(** ** The session as the specification reads it *)

Inductive Status : Type := Disconnected | Connecting | Connected.

(** The component keeps a flag, not a status: the session read interface
    derives [isConnected] as "status is Connected", and the flag has no third
    value. *)
Definition status (s : Session) : Status :=
  if isConnected s then Connected else Disconnected.

Definition present {A : Type} (v : option A) : Prop := v <> None.

(** ** Invariants of tasks *)

(** [keeps I done t]: when [t] runs after the synchronous updates [done], [I]
    is restored at every point where other code can observe the session: each
    [await] and the end of the task. *)
Fixpoint keeps (I : Session -> Prop) (done : Session -> Session) (t : Task)
  : Prop :=
  match t with
  | Return => forall s, I s -> I (done s)
  | Do e next => keeps I (fun s => perform e (done s)) next
  | Await c k =>
      (forall s, I s -> I (done s)) /\ forall r, keeps I (fun s => s) (k r)
  end.

Definition resumable (I : Session -> Prop) (p : Suspended) : Prop :=
  forall r, keeps I (fun s => s) (resume p r).

(** The invariant of a whole system: the session satisfies [I] and so will it
    whenever a call in flight settles, whatever the outcome. *)
Definition stable (I : Session -> Prop) (w : System) : Prop :=
  I (session w) /\ Forall (resumable I) (in_flight w).


(** What holds of the session between any two steps: a connected session has
    every field set for the required chain, a disconnected one holds no
    handle. *)
Definition coherent (s : Session) : Prop :=
  if isConnected s
  then present (account s) /\ chainId s = Some (Js.Finite SEPOLIA_CHAIN_ID) /\
       present (provider s) /\ present (signer s)
  else provider s = None /\ signer s = None.


(** ** Sample wallets and sessions *)

(** The messages of the notifications of one kind in a trace. *)
Fixpoint notifications (kind : toast_kind) (tr : list event) : list string :=
  match tr with
  | [] => []
  | Notified k message :: tr' =>
      match kind, k with
      | success, success | error, error | loading, loading =>
          message :: notifications kind tr'
      | _, _ => notifications kind tr'
      end
  | _ :: tr' => notifications kind tr'
  end.

(** The adapter that settles each kind of call in a fixed way. *)
Definition adapter_of (accounts : settled (list string))
    (signer : settled JsonRpcSigner) (network : settled Network)
    (switched added : settled unit) (authorized : settled (list string))
  : Adapter :=
  fun c =>
    match c return settled (answer c) with
    | send_eth_requestAccounts _ => accounts
    | getSigner _ => signer
    | getNetwork _ => network
    | request_wallet_switchEthereumChain _ => switched
    | request_wallet_addEthereumChain _ => added
    | request_eth_accounts => authorized
    end.

Definition wallet0 : Ethereum := InjectedWallet 0.
Definition provider0 : BrowserProvider := new_BrowserProvider wallet0.
Definition signer0 : JsonRpcSigner := SignerHandle 0.
Definition user_rejected : Js.error := {| Js.code := Some 4001 |}.
Definition unrecognized_chain : Js.error := {| Js.code := Some 4902 |}.

(** A wallet on Sepolia with one authorised account. *)
Definition sepolia_wallet : Adapter :=
  adapter_of (Fulfilled ["0xAA"]) (Fulfilled signer0)
             (Fulfilled {| network_chainId := 11155111 |})
             (Fulfilled tt) (Fulfilled tt) (Fulfilled ["0xAA"]).

(** A wallet on mainnet that does not know Sepolia and refuses to add it. *)
Definition mainnet_wallet : Adapter :=
  adapter_of (Fulfilled ["0xAA"]) (Fulfilled signer0)
             (Fulfilled {| network_chainId := 1 |})
             (Rejected unrecognized_chain) (Rejected user_rejected)
             (Fulfilled ["0xAA"]).

(** A wallet with an authorised account whose user declines the prompt. *)
Definition declining_wallet : Adapter :=
  adapter_of (Rejected user_rejected) (Fulfilled signer0)
             (Fulfilled {| network_chainId := 11155111 |})
             (Rejected user_rejected) (Rejected user_rejected)
             (Fulfilled ["0xAA"]).

(** A session connected to [wallet0]. *)
Definition connected0 : Session :=
  {| provider := Some provider0; signer := Some signer0; account := Some "0xAA";
     chainId := Some (Js.Finite SEPOLIA_CHAIN_ID); isConnected := true |}.

(** Settles the oldest call in flight the way [a] does. *)
Definition settle_oldest (a : Adapter) (w : System) : System :=
  match in_flight w with
  | p :: after => spawn (resume p (a (waiting_on p))) [] after w
  | [] => w
  end.

(** The application calls [connectWallet()]. *)
Definition call_connectWallet (ethereum : option Ethereum) (w : System) : System :=
  spawn (connectWallet ethereum Return) (in_flight w) [] w.

(** Mounted next to [wallet0] with nothing authorised: the probe has ended. *)
Definition idle0 : System :=
  settle_oldest (adapter_of (Fulfilled []) (Fulfilled signer0)
                            (Fulfilled {| network_chainId := 11155111 |})
                            (Fulfilled tt) (Fulfilled tt) (Fulfilled []))
                (mount (Some wallet0)).

(** [idle0] after one [connectWallet()] whose account prompt is still open. *)
Definition connecting0 : System := call_connectWallet (Some wallet0) idle0.

(** [idle0] after a [connectWallet()] that the wallet let through. *)
Definition connected_system0 : System :=
  settle_oldest sepolia_wallet
    (settle_oldest sepolia_wallet (settle_oldest sepolia_wallet connecting0)).

(** ** Further observations *)

(** The wallet calls of a trace, in the order they were made. *)
Fixpoint requests (tr : list event) : list call :=
  match tr with
  | [] => []
  | Requested c :: tr' => c :: requests tr'
  | _ :: tr' => requests tr'
  end.

(** The calls [connectWallet] can make next to [eth], in source order:
    those of its own body, then those of the [switchToSepolia] it awaits. *)
Definition connect_protocol (eth : Ethereum) : list call :=
  [send_eth_requestAccounts (new_BrowserProvider eth);
   getSigner (new_BrowserProvider eth);
   getNetwork (new_BrowserProvider eth);
   request_wallet_switchEthereumChain sepolia_chainId_hex;
   request_wallet_addEthereumChain sepolia_params].

(** The [chainId] cell is empty or holds the required id. *)
Definition chain_cell_clean (s : Session) : Prop :=
  chainId s = None \/ chainId s = Some (Js.Finite SEPOLIA_CHAIN_ID).


(** A wallet that grants no account. *)
Definition locked_wallet : Adapter :=
  adapter_of (Fulfilled []) (Fulfilled signer0)
             (Fulfilled {| network_chainId := 11155111 |})
             (Fulfilled tt) (Fulfilled tt) (Fulfilled []).

(** * Properties *)

Example toString16_sepolia : Js.toString16 SEPOLIA_CHAIN_ID = "aa36a7".
Proof. reflexivity. Qed.

Example parseInt16_sepolia : Js.parseInt16 "0xaa36a7" = Js.Finite SEPOLIA_CHAIN_ID.
Proof. reflexivity. Qed.

Example parseInt16_mainnet : Js.parseInt16 "0x1" = Js.Finite 1.
Proof. reflexivity. Qed.

Example parseInt16_garbage : Js.parseInt16 "chain" = Js.Finite 12.
Proof. reflexivity. Qed.

Example parseInt16_nan : Js.parseInt16 "xyz" = Js.NaN.
Proof. reflexivity. Qed.

Example of_Z_rounds : Js.of_Z (2 ^ 53 + 1) = Js.Finite (2 ^ 53).
Proof. reflexivity. Qed.

Example of_Z_rounds_up : Js.of_Z (2 ^ 53 + 3) = Js.Finite (2 ^ 53 + 4).
Proof. reflexivity. Qed.

(** ** Numbers *)

Lemma strict_neq_Finite (n : Js.number) (z : Z) :
  Js.strict_neq n (Js.Finite z) = true <-> n <> Js.Finite z.
Proof.
  unfold Js.strict_neq.
  destruct n as [ | b | x]; simpl; try (split; [discriminate | reflexivity]).
  rewrite negb_true_iff, Z.eqb_neq. split; congruence.
Qed.

Lemma strict_neq_Finite_false (n : Js.number) (z : Z) :
  Js.strict_neq n (Js.Finite z) = false <-> n = Js.Finite z.
Proof.
  unfold Js.strict_neq.
  destruct n as [ | b | x]; simpl; try (split; discriminate).
  rewrite negb_false_iff, Z.eqb_eq. split; congruence.
Qed.

(** Rounding to a double moves no integer onto an odd one. *)
Lemma round_magnitude_odd (m : Z) :
  0 <= m -> Z.odd (Js.round_magnitude m) = true -> Js.round_magnitude m = m.
Proof.
  intros Hm. unfold Js.round_magnitude.
  destruct (m <? 2 ^ 53) eqn:Hlt; [reflexivity | ].
  apply Z.ltb_ge in Hlt.
  assert (He : 1 <= Z.log2 m - 52).
  { assert (53 <= Z.log2 m); [ | lia].
    apply Z.log2_le_pow2; lia. }
  remember (Z.log2 m - 52) as e eqn:Ee.
  replace (2 ^ e) with (2 * 2 ^ (e - 1))
    by (rewrite <- Z.pow_succ_r by lia; f_equal; lia).
  intros Hodd. exfalso.
  rewrite Z.mul_assoc, (Z.mul_comm _ 2), <- Z.mul_assoc, Z.odd_mul in Hodd.
  discriminate Hodd.
Qed.

(** [Number(x)] is the required chain id only for [x] the required chain id. *)
Lemma of_Z_sepolia (z : Z) :
  Js.of_Z z = Js.Finite SEPOLIA_CHAIN_ID <-> z = SEPOLIA_CHAIN_ID.
Proof.
  split; [ | intros ->; reflexivity].
  unfold Js.of_Z.
  destruct (2 ^ 1024 <=? Js.round_magnitude (Z.abs z)); [discriminate | ].
  intros H. injection H as H.
  assert (Hodd : Z.odd (Js.round_magnitude (Z.abs z)) = true).
  { assert (Ho : Z.odd (Z.sgn z * Js.round_magnitude (Z.abs z)) = true)
      by (rewrite H; reflexivity).
    rewrite Z.odd_mul in Ho. apply andb_true_iff in Ho. apply Ho. }
  rewrite (round_magnitude_odd _ (Z.abs_nonneg z) Hodd) in H.
  destruct z as [ | p | p]; [discriminate H | exact H | discriminate H].
Qed.

(** ** Invariants of tasks, proved *)

Section Keeps.

Variable I : Session -> Prop.

Lemma advance_keeps (t : Task) :
  forall done s,
    keeps I done t -> I s ->
    I (fst (fst (advance t (done s)))) /\
    match snd (advance t (done s)) with
    | Some p => resumable I p
    | None => True
    end.
Proof.
  induction t as [ | e next IH | c k IH]; intros done s Hk Hs; simpl in *.
  - split; [apply Hk, Hs | exact Logic.I].
  - specialize (IH (fun s => perform e (done s)) s Hk Hs). simpl in IH.
    destruct (advance next (perform e (done s))) as [[s' tr] p]. exact IH.
  - destruct Hk as [Hd Hr]. split; [apply Hd, Hs | exact Hr].
Qed.

Lemma run_keeps (a : Adapter) (t : Task) :
  forall done s, keeps I done t -> I s -> I (fst (run a t (done s))).
Proof.
  induction t as [ | e next IH | c k IH]; intros done s Hk Hs; simpl in *.
  - apply Hk, Hs.
  - specialize (IH (fun s => perform e (done s)) s Hk Hs). simpl in IH.
    destruct (run a next (perform e (done s))) as [s' tr]. exact IH.
  - destruct Hk as [Hd Hr].
    specialize (IH (a c) (fun s => s) (done s) (Hr (a c)) (Hd s Hs)).
    simpl in IH.
    destruct (run a (k (a c)) (done s)) as [s' tr]. exact IH.
Qed.

Lemma spawn_stable (t : Task) (before after : list Suspended) (w : System) :
  keeps I (fun s => s) t -> I (session w) ->
  Forall (resumable I) before -> Forall (resumable I) after ->
  stable I (spawn t before after w).
Proof.
  intros Ht Hs Hb Ha. unfold stable, spawn.
  destruct (advance_keeps t (fun s => s) (session w) Ht Hs) as [H1 H2].
  destruct (advance t (session w)) as [[s' tr] p]. simpl in *.
  split; [exact H1 | ].
  apply Forall_app. split; [exact Hb | ].
  destruct p as [q | ]; [constructor; assumption | exact Ha].
Qed.

End Keeps.

Lemma switchToSepolia_keeps (I : Session -> Prop) (ethereum : option Ethereum)
      (done : Session -> Session) :
  (forall s, I s -> I (done s)) ->
  keeps I done (switchToSepolia ethereum Return).
Proof.
  intros Hd. unfold switchToSepolia.
  assert (Hcatch : forall (f : Session -> Session) (e : Js.error),
             (forall s, I s -> I (f s)) ->
             keeps I f
               (if Js.code_is e 4902
                then Await (request_wallet_addEthereumChain sepolia_params)
                       (fun added =>
                          match added with
                          | Fulfilled _ => Return
                          | Rejected _ =>
                              Do (toast error "Failed to add Sepolia network") Return
                          end)
                else Do (toast error "Failed to switch to Sepolia network") Return)).
  { intros f e Hf. destruct (Js.code_is e 4902); simpl.
    - split; [exact Hf | ]. intros [u | r]; simpl; auto.
    - exact Hf. }
  destruct ethereum as [eth | ]; simpl.
  - split; [exact Hd | ]. intros [u | e]; [simpl; auto | ].
    apply Hcatch. auto.
  - exact Hd.
Qed.

Lemma connectWallet_coherent (ethereum : option Ethereum) :
  keeps coherent (fun s => s) (connectWallet ethereum Return).
Proof.
  destruct ethereum as [eth | ]; simpl; [ | auto].
  split; [auto | ]. intros [[ | account0 rest] | e]; simpl; auto.
  split; [auto | ]. intros [sg | e]; simpl; auto.
  split; [auto | ]. intros [net | e]; simpl; auto.
  destruct (Js.strict_neq _ _) eqn:Hnet.
  - exact (switchToSepolia_keeps coherent (Some eth)
             (perform (toast error "Please switch to Sepolia Testnet."))
             (fun s H => H)).
  - apply strict_neq_Finite_false in Hnet. simpl. intros s _.
    unfold coherent, present; simpl. rewrite Hnet.
    repeat split; discriminate.
Qed.

Lemma disconnectWallet_coherent : keeps coherent (fun s => s) (disconnectWallet Return).
Proof. simpl. intros s _. unfold coherent; simpl. auto. Qed.

Lemma handleAccountsChanged_coherent (accounts : list string) :
  keeps coherent (fun s => s) (handleAccountsChanged accounts).
Proof.
  destruct accounts as [ | account0 rest]; [apply disconnectWallet_coherent | ].
  simpl. intros s. unfold coherent, present; simpl.
  destruct (isConnected s); [ | auto].
  intros (_ & Hc & Hp & Hs). repeat split; auto. discriminate.
Qed.

Lemma handleChainChanged_coherent (chainIdHex : string) :
  keeps coherent (fun s => s) (handleChainChanged chainIdHex).
Proof.
  unfold handleChainChanged.
  destruct (Js.strict_neq _ _) eqn:Hid; simpl.
  - intros s _. unfold coherent; simpl. auto.
  - apply strict_neq_Finite_false in Hid. rewrite Hid.
    intros s. unfold coherent; simpl.
    destruct (isConnected s); [ | auto].
    intros (Ha & _ & Hp & Hs). auto.
Qed.

Lemma autoConnect_coherent (ethereum : option Ethereum) :
  keeps coherent (fun s => s) (autoConnect ethereum).
Proof.
  destruct ethereum as [eth | ]; simpl; [ | auto].
  split; [auto | ]. intros [[ | account0 rest] | e]; simpl; auto.
  apply (connectWallet_coherent (Some eth)).
Qed.

Lemma entry_coherent (t : Task) : entry t -> keeps coherent (fun s => s) t.
Proof.
  destruct 1.
  - apply connectWallet_coherent.
  - apply disconnectWallet_coherent.
  - apply switchToSepolia_keeps. auto.
  - apply handleAccountsChanged_coherent.
  - apply handleChainChanged_coherent.
Qed.

(** An entry point run without interruption keeps the session coherent. *)
Lemma entry_run_coherent (a : Adapter) (t : Task) (s : Session) :
  entry t -> coherent s -> coherent (fst (run a t s)).
Proof.
  intros Ht Hs.
  exact (run_keeps coherent a t (fun s => s) s (entry_coherent t Ht) Hs).
Qed.

Lemma initial_coherent : coherent initial.
Proof. unfold coherent; simpl. auto. Qed.

Lemma step_stable (w w' : System) :
  step w w' -> stable coherent w -> stable coherent w'.
Proof.
  intros Hstep [Hs Hf]. destruct Hstep as [t w Ht | s before p after h outcome];
    simpl in *.
  - apply spawn_stable; auto. apply entry_coherent, Ht.
  - apply Forall_app in Hf. destruct Hf as [Hb Hpa].
    inversion Hpa as [ | p' after' Hp Ha]; subst.
    apply spawn_stable; auto.
Qed.

Lemma reachable_stable (w : System) : reachable w -> stable coherent w.
Proof.
  induction 1 as [ethereum | w w' _ IH Hstep].
  - apply spawn_stable; auto using autoConnect_coherent, initial_coherent.
  - exact (step_stable w w' Hstep IH).
Qed.

Lemma coherent_connected (s : Session) :
  coherent s ->
  (status s = Connected <->
   present (account s) /\ chainId s = Some (Js.Finite SEPOLIA_CHAIN_ID) /\
   present (provider s) /\ present (signer s)).
Proof.
  unfold coherent, status, present. destruct (isConnected s).
  - intros H. split; [intros _; exact H | reflexivity].
  - intros [Hp _]. split; [discriminate | ].
    intros (_ & _ & Hp' & _). contradiction.
Qed.

Lemma settle_oldest_reachable (a : Adapter) (w : System) :
  reachable w -> reachable (settle_oldest a w).
Proof.
  intros Hw. unfold settle_oldest.
  destruct w as [s [ | p after] h]; simpl; [exact Hw | ].
  apply (reachable_step _ _ Hw).
  exact (step_settle s [] p after h (a (waiting_on p))).
Defined.

Lemma call_connectWallet_reachable (ethereum : option Ethereum) (w : System) :
  reachable w -> reachable (call_connectWallet ethereum w).
Proof.
  intros Hw.
  exact (reachable_step _ _ Hw
           (step_enter _ w (entry_connectWallet ethereum))).
Defined.

Lemma connected_system0_reachable : reachable connected_system0.
Proof.
  repeat apply settle_oldest_reachable.
  apply call_connectWallet_reachable.
  apply settle_oldest_reachable.
  apply reachable_mount.
Defined.

Example connected_system0_session : session connected_system0 = connected0.
Proof. reflexivity. Qed.

Example connected_system0_history :
  history connected_system0 =
  [Notified loading "Attempting auto-connect..."; Requested request_eth_accounts;
   Requested (send_eth_requestAccounts provider0); Requested (getSigner provider0);
   Requested (getNetwork provider0);
   Notified success "Wallet connected successfully!"].
Proof. reflexivity. Qed.

(** ** Session invariant *)

(** C1.  In every state the component can reach from its mount, by any
    interleaving of [connectWallet] and [disconnectWallet] calls
    ([switchToSepolia] calls too), [accountsChanged] and [chainChanged] events
    and wallet answers of any kind, the status is Connected if and only if the
    account, the provider handle and the signer handle are present and the
    chain id is 11155111. *)
Theorem connected_iff_complete (w : System) :
  reachable w ->
  (status (session w) = Connected <->
   present (account (session w)) /\
   chainId (session w) = Some (Js.Finite SEPOLIA_CHAIN_ID) /\
   present (provider (session w)) /\ present (signer (session w))).
Proof.
  intros Hw. apply coherent_connected. apply (reachable_stable w Hw).
Qed.

Lemma connected_iff_complete_witness :
  reachable connected_system0 /\
  (status (session connected_system0) = Connected <->
   present (account (session connected_system0)) /\
   chainId (session connected_system0) = Some (Js.Finite SEPOLIA_CHAIN_ID) /\
   present (provider (session connected_system0)) /\
   present (signer (session connected_system0))).
Proof.
  split; [exact connected_system0_reachable | ].
  apply (connected_iff_complete connected_system0).
  exact connected_system0_reachable.
Defined.

(** ** [switchToSepolia] *)

(** Everything a [switchToSepolia()] call does once all its requests have
    settled. *)
Lemma switchToSepolia_run (a : Adapter) (eth : Ethereum) (s : Session) :
  run a (switchToSepolia (Some eth) Return) s =
  (s,
   Requested (request_wallet_switchEthereumChain sepolia_chainId_hex) ::
   match a (request_wallet_switchEthereumChain sepolia_chainId_hex) with
   | Fulfilled _ => []
   | Rejected switchError =>
       if Js.code_is switchError 4902 then
         Requested (request_wallet_addEthereumChain sepolia_params) ::
         match a (request_wallet_addEthereumChain sepolia_params) with
         | Fulfilled _ => []
         | Rejected _ => [Notified error "Failed to add Sepolia network"]
         end
       else [Notified error "Failed to switch to Sepolia network"]
   end).
Proof.
  unfold switchToSepolia. simpl.
  destruct (a (request_wallet_switchEthereumChain sepolia_chainId_hex))
    as [u | switchError]; [reflexivity | ].
  destruct (Js.code_is switchError 4902); [ | reflexivity].
  simpl.
  destruct (a (request_wallet_addEthereumChain sepolia_params)); reflexivity.
Qed.

Lemma switchToSepolia_run_no_wallet (a : Adapter) (s : Session) :
  run a (switchToSepolia None Return) s =
  (s, [Notified error "Failed to switch to Sepolia network"]).
Proof. reflexivity. Qed.

Lemma code_is_iff (e : Js.error) (n : Z) :
  Js.code_is e n = true <-> Js.code e = Some n.
Proof.
  unfold Js.code_is. destruct (Js.code e) as [c | ].
  - rewrite Z.eqb_eq. split; congruence.
  - split; discriminate.
Qed.

(** C6.  When the wallet rejects the switch request with code 4902, the
    add-network request, carrying the whole Sepolia descriptor, is issued
    before anything is notified, and a failure is notified only if that
    request is rejected too; when the switch request is rejected with any
    other code, the switch-failed notification follows and no add-network
    request is made. *)
Theorem switchToSepolia_fallback (a : Adapter) (eth : Ethereum) (s : Session)
    (switchError : Js.error) :
  a (request_wallet_switchEthereumChain sepolia_chainId_hex) = Rejected switchError ->
  (Js.code switchError = Some 4902 ->
   snd (run a (switchToSepolia (Some eth) Return) s) =
   Requested (request_wallet_switchEthereumChain "0xaa36a7") ::
   Requested (request_wallet_addEthereumChain
                {| add_chainId := "0xaa36a7";
                   add_chainName := "Sepolia Test Network";
                   add_nativeCurrency :=
                     {| currency_name := "Sepolia Ether";
                        currency_symbol := "ETH";
                        currency_decimals := 18 |};
                   add_rpcUrls := [SEPOLIA_RPC_URL];
                   add_blockExplorerUrls := ["https://sepolia.etherscan.io/"] |}) ::
   match a (request_wallet_addEthereumChain sepolia_params) with
   | Fulfilled _ => []
   | Rejected _ => [Notified error "Failed to add Sepolia network"]
   end) /\
  (Js.code switchError <> Some 4902 ->
   snd (run a (switchToSepolia (Some eth) Return) s) =
   [Requested (request_wallet_switchEthereumChain "0xaa36a7");
    Notified error "Failed to switch to Sepolia network"]).
Proof.
  intros Hswitch. rewrite switchToSepolia_run, Hswitch. simpl.
  split; intros Hcode.
  - apply code_is_iff in Hcode. rewrite Hcode. reflexivity.
  - destruct (Js.code_is switchError 4902) eqn:Hc; [ | reflexivity].
    apply code_is_iff in Hc. contradiction.
Qed.

Lemma switchToSepolia_fallback_witness :
  mainnet_wallet (request_wallet_switchEthereumChain sepolia_chainId_hex) =
    Rejected unrecognized_chain /\
  Js.code unrecognized_chain = Some 4902 /\
  snd (run mainnet_wallet (switchToSepolia (Some wallet0) Return) initial) =
  [Requested (request_wallet_switchEthereumChain "0xaa36a7");
   Requested (request_wallet_addEthereumChain sepolia_params);
   Notified error "Failed to add Sepolia network"].
Proof.
  split; [reflexivity | ]. split; [reflexivity | ].
  apply (switchToSepolia_fallback mainnet_wallet wallet0 initial unrecognized_chain);
    reflexivity.
Defined.

(** C10.  Whatever the wallet answers (switch accepted; switch rejected with
    4902 and the chain added, or not added; switch rejected otherwise) and
    also without a wallet, [switchToSepolia()] leaves the session as it
    found it: provider, signer, account, chain id and connection flag are the
    ones from before the call. *)
Theorem switchToSepolia_frame (a : Adapter) (ethereum : option Ethereum)
    (s : Session) :
  fst (run a (switchToSepolia ethereum Return) s) = s.
Proof.
  destruct ethereum as [eth | ].
  - rewrite switchToSepolia_run. reflexivity.
  - reflexivity.
Qed.

(** Between its suspension points too, [switchToSepolia] writes nothing. *)
Lemma switchToSepolia_never_writes (ethereum : option Ethereum) (s : Session) :
  keeps (fun s' => s' = s) (fun s' => s') (switchToSepolia ethereum Return).
Proof. apply switchToSepolia_keeps. auto. Qed.

(** ** [connectWallet] *)

(** Everything a [connectWallet()] call does next to a wallet once all its
    requests have settled. *)
Lemma connectWallet_run (a : Adapter) (eth : Ethereum) (s : Session) :
  let p := new_BrowserProvider eth in
  let failed reason :=
    [Logged "Failed to connect wallet:" reason;
     Notified error "Failed to connect wallet. Please try again."] in
  run a (connectWallet (Some eth) Return) s =
  match a (send_eth_requestAccounts p) with
  | Rejected reason => (s, Requested (send_eth_requestAccounts p) :: failed reason)
  | Fulfilled [] => (s, [Requested (send_eth_requestAccounts p)])
  | Fulfilled (account0 :: _) =>
      match a (getSigner p) with
      | Rejected reason =>
          (s, Requested (send_eth_requestAccounts p) :: Requested (getSigner p) ::
              failed reason)
      | Fulfilled sg =>
          match a (getNetwork p) with
          | Rejected reason =>
              (s, Requested (send_eth_requestAccounts p) ::
                  Requested (getSigner p) :: Requested (getNetwork p) ::
                  failed reason)
          | Fulfilled net =>
              if Js.strict_neq (Js.of_Z (network_chainId net))
                               (Js.Finite SEPOLIA_CHAIN_ID)
              then
                (s, Requested (send_eth_requestAccounts p) ::
                    Requested (getSigner p) :: Requested (getNetwork p) ::
                    Notified error "Please switch to Sepolia Testnet." ::
                    snd (run a (switchToSepolia (Some eth) Return) s))
              else
                ({| provider := Some p; signer := Some sg;
                    account := Some account0;
                    chainId := Some (Js.of_Z (network_chainId net));
                    isConnected := true |},
                 [Requested (send_eth_requestAccounts p);
                  Requested (getSigner p); Requested (getNetwork p);
                  Notified success "Wallet connected successfully!"])
          end
      end
  end.
Proof.
  intros p failed. unfold connectWallet. fold p. cbn [run].
  destruct (a (send_eth_requestAccounts p)) as [[ | account0 others] | reason];
    [reflexivity | | reflexivity].
  cbn [run].
  destruct (a (getSigner p)) as [sg | reason]; [ | reflexivity].
  cbn [run].
  destruct (a (getNetwork p)) as [net | reason]; [ | reflexivity].
  destruct (Js.strict_neq _ _); [ | reflexivity].
  cbn [run perform emitted app].
  rewrite switchToSepolia_run. reflexivity.
Qed.

(** The wallet is asked for the network only once it has granted an account
    and handed out a signer. *)
Lemma getNetwork_after_signer (a : Adapter) (eth : Ethereum) (s : Session) :
  In (Requested (getNetwork (new_BrowserProvider eth)))
     (snd (run a (connectWallet (Some eth) Return) s)) ->
  exists account0 others sg,
    a (send_eth_requestAccounts (new_BrowserProvider eth)) =
      Fulfilled (account0 :: others) /\
    a (getSigner (new_BrowserProvider eth)) = Fulfilled sg.
Proof.
  rewrite connectWallet_run.
  destruct (a (send_eth_requestAccounts _)) as [[ | account0 others] | reason];
    simpl; try (intuition discriminate).
  destruct (a (getSigner _)) as [sg | reason]; simpl;
    try (intuition discriminate).
  intros _. exists account0, others, sg. auto.
Qed.

(** C2.  When the wallet is there, grants at least one account, hands out a
    signer and reports network 11155111, [connectWallet()] ends Connected
    with the first granted account, chain id 11155111, the provider and the
    signer stored, and one success notification (no other notification). *)
Theorem connectWallet_on_sepolia (a : Adapter) (eth : Ethereum)
    (account0 : string) (others : list string) (sg : JsonRpcSigner)
    (net : Network) (s : Session) :
  a (send_eth_requestAccounts (new_BrowserProvider eth)) =
    Fulfilled (account0 :: others) ->
  a (getSigner (new_BrowserProvider eth)) = Fulfilled sg ->
  a (getNetwork (new_BrowserProvider eth)) = Fulfilled net ->
  network_chainId net = SEPOLIA_CHAIN_ID ->
  let result := run a (connectWallet (Some eth) Return) s in
  status (fst result) = Connected /\
  account (fst result) = Some account0 /\
  chainId (fst result) = Some (Js.Finite 11155111) /\
  provider (fst result) = Some (new_BrowserProvider eth) /\
  signer (fst result) = Some sg /\
  notifications success (snd result) = ["Wallet connected successfully!"] /\
  notifications error (snd result) = [] /\
  notifications loading (snd result) = [].
Proof.
  intros Haccounts Hsigner Hnetwork Hid result. subst result.
  rewrite connectWallet_run, Haccounts, Hsigner, Hnetwork, Hid.
  cbv. repeat split; reflexivity.
Qed.

Lemma connectWallet_on_sepolia_witness :
  sepolia_wallet (send_eth_requestAccounts provider0) = Fulfilled ["0xAA"] /\
  sepolia_wallet (getSigner provider0) = Fulfilled signer0 /\
  sepolia_wallet (getNetwork provider0) =
    Fulfilled {| network_chainId := 11155111 |} /\
  run sepolia_wallet (connectWallet (Some wallet0) Return) initial =
  (connected0,
   [Requested (send_eth_requestAccounts provider0); Requested (getSigner provider0);
    Requested (getNetwork provider0);
    Notified success "Wallet connected successfully!"]) /\
  status (fst (run sepolia_wallet (connectWallet (Some wallet0) Return) initial))
    = Connected.
Proof.
  repeat (split; [reflexivity | ]).
  apply (connectWallet_on_sepolia sepolia_wallet wallet0 "0xAA" [] signer0
           {| network_chainId := 11155111 |} initial); reflexivity.
Defined.

(** C3.  When the wallet grants at least one account, hands out a signer and
    reports a network other than 11155111, [connectWallet()] notifies
    "Please switch to Sepolia Testnet." as an error, then issues the switch
    request, and writes nothing to the session: a Disconnected session is
    Disconnected afterwards, with the fields it had. *)
Theorem connectWallet_wrong_network (a : Adapter) (eth : Ethereum)
    (account0 : string) (others : list string) (sg : JsonRpcSigner)
    (net : Network) (s : Session) :
  a (send_eth_requestAccounts (new_BrowserProvider eth)) =
    Fulfilled (account0 :: others) ->
  a (getSigner (new_BrowserProvider eth)) = Fulfilled sg ->
  a (getNetwork (new_BrowserProvider eth)) = Fulfilled net ->
  network_chainId net <> SEPOLIA_CHAIN_ID ->
  let result := run a (connectWallet (Some eth) Return) s in
  fst result = s /\
  (status s = Disconnected -> status (fst result) = Disconnected) /\
  notifications success (snd result) = [] /\
  exists after,
    snd result =
    Requested (send_eth_requestAccounts (new_BrowserProvider eth)) ::
    Requested (getSigner (new_BrowserProvider eth)) ::
    Requested (getNetwork (new_BrowserProvider eth)) ::
    Notified error "Please switch to Sepolia Testnet." ::
    Requested (request_wallet_switchEthereumChain "0xaa36a7") :: after.
Proof.
  intros Haccounts Hsigner Hnetwork Hid result. subst result.
  rewrite connectWallet_run, Haccounts, Hsigner, Hnetwork.
  assert (Hneq : Js.strict_neq (Js.of_Z (network_chainId net))
                               (Js.Finite SEPOLIA_CHAIN_ID) = true).
  { apply strict_neq_Finite. intros H. apply of_Z_sepolia in H. contradiction. }
  rewrite Hneq, switchToSepolia_run. cbn [fst snd].
  split; [reflexivity | ]. split; [auto | ]. split.
  - cbn [notifications].
    destruct (a (request_wallet_switchEthereumChain sepolia_chainId_hex))
      as [u | e]; [reflexivity | ].
    destruct (Js.code_is e 4902); [ | reflexivity].
    cbn [notifications].
    destruct (a (request_wallet_addEthereumChain sepolia_params)); reflexivity.
  - eexists. reflexivity.
Qed.

Lemma connectWallet_wrong_network_witness :
  mainnet_wallet (send_eth_requestAccounts provider0) = Fulfilled ["0xAA"] /\
  mainnet_wallet (getSigner provider0) = Fulfilled signer0 /\
  mainnet_wallet (getNetwork provider0) = Fulfilled {| network_chainId := 1 |} /\
  1 <> SEPOLIA_CHAIN_ID /\
  fst (run mainnet_wallet (connectWallet (Some wallet0) Return) initial) = initial.
Proof.
  repeat (split; [reflexivity || discriminate | ]).
  apply (connectWallet_wrong_network mainnet_wallet wallet0 "0xAA" [] signer0
           {| network_chainId := 1 |} initial);
    reflexivity || discriminate.
Defined.

Example connectWallet_on_mainnet :
  run mainnet_wallet (connectWallet (Some wallet0) Return) initial =
  (initial,
   [Requested (send_eth_requestAccounts provider0); Requested (getSigner provider0);
    Requested (getNetwork provider0);
    Notified error "Please switch to Sepolia Testnet.";
    Requested (request_wallet_switchEthereumChain "0xaa36a7");
    Requested (request_wallet_addEthereumChain sepolia_params);
    Notified error "Failed to add Sepolia network"]).
Proof. reflexivity. Qed.

(** C9.  Without [window.ethereum], [connectWallet()] leaves every field of
    the session as it was (a Disconnected session stays Disconnected) and
    emits one notification, an error, and nothing else. *)
Theorem connectWallet_without_wallet (a : Adapter) (s : Session) :
  let result := run a (connectWallet None Return) s in
  fst result = s /\
  (status s = Disconnected -> status (fst result) = Disconnected) /\
  snd result =
    [Notified error
       "MetaMask is not installed. Please install MetaMask to continue."] /\
  List.length (notifications error (snd result)) = 1%nat.
Proof.
  intros result. subst result. unfold connectWallet. cbn [run perform emitted app].
  split; [reflexivity | ]. split; [auto | ]. split; reflexivity.
Qed.

(** ** Wallet events *)

(** C8.  On [accountsChanged] with a non-empty list the handler stores the
    first entry as the account and leaves the provider, the signer, the chain
    id and the connection flag as they were; it emits nothing. *)
Theorem handleAccountsChanged_frame (a : Adapter) (account0 : string)
    (others : list string) (s : Session) :
  let result := run a (handleAccountsChanged (account0 :: others)) s in
  account (fst result) = Some account0 /\
  provider (fst result) = provider s /\
  signer (fst result) = signer s /\
  chainId (fst result) = chainId s /\
  isConnected (fst result) = isConnected s /\
  status (fst result) = status s /\
  snd result = [].
Proof.
  intros result. subst result. unfold handleAccountsChanged.
  cbn [run perform emitted app fst snd].
  repeat split; reflexivity.
Qed.

(** C5.  On [chainChanged] with an id that does not parse to 11155111, the
    handler notifies "Please switch to Sepolia Testnet." as an error and
    resets the session, whatever it was: a Connected session becomes
    Disconnected, with account, chain id and both handles cleared. *)
Theorem handleChainChanged_other_chain (a : Adapter) (chainIdHex : string)
    (s : Session) :
  Js.parseInt16 chainIdHex <> Js.Finite SEPOLIA_CHAIN_ID ->
  let result := run a (handleChainChanged chainIdHex) s in
  status (fst result) = Disconnected /\
  fst result = initial /\
  snd result = [Notified error "Please switch to Sepolia Testnet.";
                Notified success "Wallet disconnected"].
Proof.
  intros Hid result. subst result. unfold handleChainChanged.
  apply strict_neq_Finite in Hid. rewrite Hid. cbv. auto.
Qed.

Lemma handleChainChanged_other_chain_witness :
  status connected0 = Connected /\
  Js.parseInt16 "0x1" <> Js.Finite SEPOLIA_CHAIN_ID /\
  fst (run sepolia_wallet (handleChainChanged "0x1") connected0) = initial.
Proof.
  split; [reflexivity | ]. split; [discriminate | ].
  apply (handleChainChanged_other_chain sepolia_wallet "0x1" connected0);
    reflexivity || discriminate.
Defined.

(** ** [autoConnect] *)

(** C7, as the specification states it, fails: next to a wallet that has an
    authorised account and sits on mainnet, the probe run on mount notifies
    two errors. *)
Lemma autoConnect_notifies_errors :
  run mainnet_wallet (autoConnect (Some wallet0)) initial =
  (initial,
   [Notified loading "Attempting auto-connect...";
    Requested request_eth_accounts;
    Requested (send_eth_requestAccounts provider0); Requested (getSigner provider0);
    Requested (getNetwork provider0);
    Notified error "Please switch to Sepolia Testnet.";
    Requested (request_wallet_switchEthereumChain "0xaa36a7");
    Requested (request_wallet_addEthereumChain sepolia_params);
    Notified error "Failed to add Sepolia network"]) /\
  notifications error (snd (run mainnet_wallet (autoConnect (Some wallet0)) initial))
  <> [].
Proof. split; [reflexivity | discriminate]. Qed.

Example autoConnect_declined :
  notifications error
    (snd (run declining_wallet (autoConnect (Some wallet0)) initial)) =
  ["Failed to connect wallet. Please try again."].
Proof. reflexivity. Qed.

(** C7, amended.  A probe whose account query is rejected only logs the
    failure, and one whose query finds no account does nothing more: neither
    notifies an error nor touches the session.  A probe whose query finds an
    account runs [connectWallet()] as any caller would: the session it leaves
    and the errors it notifies are those of that call. *)
Theorem autoConnect_errors (a : Adapter) (eth : Ethereum) (s : Session) :
  (forall reason,
      a request_eth_accounts = Rejected reason ->
      run a (autoConnect (Some eth)) s =
      (s, [Notified loading "Attempting auto-connect...";
           Requested request_eth_accounts;
           Logged "Auto-connect failed:" reason])) /\
  (a request_eth_accounts = Fulfilled [] ->
   run a (autoConnect (Some eth)) s =
   (s, [Notified loading "Attempting auto-connect...";
        Requested request_eth_accounts])) /\
  (forall account0 others,
      a request_eth_accounts = Fulfilled (account0 :: others) ->
      fst (run a (autoConnect (Some eth)) s) =
        fst (run a (connectWallet (Some eth) Return) s) /\
      notifications error (snd (run a (autoConnect (Some eth)) s)) =
        notifications error (snd (run a (connectWallet (Some eth) Return) s))).
Proof.
  unfold autoConnect. cbn [run perform emitted app].
  split; [ | split].
  - intros reason Hq. rewrite Hq. reflexivity.
  - intros Hq. rewrite Hq. reflexivity.
  - intros account0 others Hq. rewrite Hq.
    destruct (run a (connectWallet (Some eth) Return) s) as [s' tr].
    split; reflexivity.
Qed.

Lemma autoConnect_errors_witness :
  declining_wallet request_eth_accounts = Fulfilled ["0xAA"] /\
  notifications error
    (snd (run declining_wallet (autoConnect (Some wallet0)) initial)) =
  notifications error
    (snd (run declining_wallet (connectWallet (Some wallet0) Return) initial)).
Proof.
  split; [reflexivity | ].
  apply (autoConnect_errors declining_wallet wallet0 initial) with "0xAA" [].
  reflexivity.
Defined.

(** ** Re-entrancy *)

(** C4, as the specification states it, fails: a [connectWallet()] call made
    while an earlier one still waits for the account prompt sends a second
    account request and leaves two attempts in flight. *)
Lemma connectWallet_reenters :
  reachable connecting0 /\
  map waiting_on (in_flight connecting0) = [send_eth_requestAccounts provider0] /\
  step connecting0 (call_connectWallet (Some wallet0) connecting0) /\
  history (call_connectWallet (Some wallet0) connecting0) =
    (history connecting0 ++ [Requested (send_eth_requestAccounts provider0)])%list /\
  map waiting_on (in_flight (call_connectWallet (Some wallet0) connecting0)) =
    [send_eth_requestAccounts provider0; send_eth_requestAccounts provider0].
Proof.
  split.
  { apply call_connectWallet_reachable, settle_oldest_reachable, reachable_mount. }
  split; [reflexivity | ]. split.
  { exact (step_enter _ connecting0 (entry_connectWallet (Some wallet0))). }
  split; reflexivity.
Qed.

(** C4, amended.  The session has no Connecting status, and [connectWallet()]
    has no guard: next to a wallet, every call, whatever is in flight already,
    sends its own account request and becomes one more attempt in flight; up
    to there it notifies nothing and leaves the session as it was. *)
Theorem connectWallet_unguarded (eth : Ethereum) (w : System) :
  (forall s, status s <> Connecting) /\
  step w (call_connectWallet (Some eth) w) /\
  session (call_connectWallet (Some eth) w) = session w /\
  history (call_connectWallet (Some eth) w) =
    (history w ++ [Requested (send_eth_requestAccounts (new_BrowserProvider eth))])%list /\
  map waiting_on (in_flight (call_connectWallet (Some eth) w)) =
    (map waiting_on (in_flight w) ++
     [send_eth_requestAccounts (new_BrowserProvider eth)])%list.
Proof.
  split.
  { intros s. unfold status. destruct (isConnected s); discriminate. }
  split.
  { exact (step_enter _ w (entry_connectWallet (Some eth))). }
  unfold call_connectWallet, spawn. simpl.
  repeat split. rewrite map_app. reflexivity.
Qed.

(** ** The two semantics agree *)

Lemma reachable_steps (w w' : System) : steps w w' -> reachable w -> reachable w'.
Proof.
  induction 1 as [w | w w' w'' Hstep _ IH]; intros Hw; [exact Hw | ].
  apply IH. exact (reachable_step w w' Hw Hstep).
Qed.

Lemma spawn_Do (e : effect) (next : Task) (before after : list Suspended)
    (s : Session) (fl : list Suspended) (h : list event) :
  spawn (Do e next) before after {| session := s; in_flight := fl; history := h |} =
  spawn next before after
        {| session := perform e s; in_flight := fl;
           history := (h ++ emitted e)%list |}.
Proof.
  unfold spawn. simpl.
  destruct (advance next (perform e s)) as [[s' tr] p].
  rewrite app_assoc. reflexivity.
Qed.

(** Settling each call of a task as soon as it is made is one of the
    schedules of [step], and ends where [run] says. *)
Lemma spawn_steps_run (a : Adapter) (t : Task) :
  forall before after s fl h,
    steps (spawn t before after {| session := s; in_flight := fl; history := h |})
          {| session := fst (run a t s);
             in_flight := (before ++ after)%list;
             history := (h ++ snd (run a t s))%list |}.
Proof.
  induction t as [ | e next IH | c k IH]; intros before after s fl h.
  - apply steps_done.
  - rewrite spawn_Do. simpl.
    specialize (IH before after (perform e s) fl (h ++ emitted e)%list).
    destruct (run a next (perform e s)) as [s' tr]. simpl in *.
    rewrite app_assoc. exact IH.
  - unfold spawn at 1. simpl.
    eapply steps_next.
    + exact (step_settle s before {| waiting_on := c; resume := k |} after
               (h ++ [Requested c])%list (a c)).
    + simpl.
      specialize (IH (a c) before after s
                     (before ++ {| waiting_on := c; resume := k |} :: after)%list
                     (h ++ [Requested c])%list).
      destruct (run a (k (a c)) s) as [s' tr]. simpl in *.
      rewrite <- app_assoc in IH. exact IH.
Qed.

(** An entry point run to its end without interruption is reachable. *)
Lemma atomically_reachable (a : Adapter) (t : Task) (w : System) :
  entry t -> reachable w -> reachable (atomically a t w).
Proof.
  intros Ht Hw.
  apply (reachable_steps (spawn t (in_flight w) [] w)).
  - destruct w as [s fl h]. unfold atomically. simpl.
    rewrite <- (app_nil_r fl) at 3. apply spawn_steps_run.
  - exact (reachable_step _ _ Hw (step_enter t w Ht)).
Qed.

(** * Further properties *)

(** ** [disconnectWallet] and the empty account list *)

(** X1.  [disconnectWallet()] takes any session to the initial one and
    notifies "Wallet disconnected" once; a second call right after finds
    nothing left to clear. *)
Theorem disconnectWallet_idempotent (a : Adapter) (s : Session) :
  let once := run a (disconnectWallet Return) s in
  let twice := run a (disconnectWallet Return) (fst once) in
  fst once = initial /\
  snd once = [Notified success "Wallet disconnected"] /\
  status (fst once) = Disconnected /\
  fst twice = fst once.
Proof.
  intros once twice. subst twice once. unfold disconnectWallet.
  cbn [Seq run perform emitted app fst snd].
  repeat split.
Qed.

(** X2.  [accountsChanged] with an empty list is a logout: whatever the
    session was, every cell is cleared and "Wallet disconnected" is the one
    notification; no wallet call is made. *)
Theorem handleAccountsChanged_empty (a : Adapter) (s : Session) :
  let result := run a (handleAccountsChanged []) s in
  fst result = initial /\
  status (fst result) = Disconnected /\
  snd result = [Notified success "Wallet disconnected"] /\
  requests (snd result) = [].
Proof.
  intros result. subst result. unfold handleAccountsChanged, disconnectWallet.
  cbn [Seq run perform emitted app fst snd].
  repeat split.
Qed.

(** X3.  [chainChanged] with an id that parses to 11155111 only stores that
    id: provider, signer, account and connection flag stay, nothing is
    notified. *)
Theorem handleChainChanged_sepolia (a : Adapter) (chainIdHex : string)
    (s : Session) :
  Js.parseInt16 chainIdHex = Js.Finite SEPOLIA_CHAIN_ID ->
  run a (handleChainChanged chainIdHex) s =
  ({| provider := provider s; signer := signer s; account := account s;
      chainId := Some (Js.Finite SEPOLIA_CHAIN_ID);
      isConnected := isConnected s |}, []).
Proof.
  intros Hid. unfold handleChainChanged. rewrite Hid.
  assert (Heq : Js.strict_neq (Js.Finite SEPOLIA_CHAIN_ID)
                              (Js.Finite SEPOLIA_CHAIN_ID) = false)
    by (apply strict_neq_Finite_false; reflexivity).
  rewrite Heq. reflexivity.
Qed.

Lemma handleChainChanged_sepolia_witness :
  Js.parseInt16 " 0XAA36A7" = Js.Finite SEPOLIA_CHAIN_ID /\
  run sepolia_wallet (handleChainChanged " 0XAA36A7") connected0 =
  (connected0, []).
Proof.
  split; [reflexivity | ].
  apply (handleChainChanged_sepolia sepolia_wallet " 0XAA36A7" connected0).
  reflexivity.
Defined.

(** ** What [switchToSepolia] and [connectWallet] can emit *)

(** The traces of a [switchToSepolia()] call next to a wallet. *)
Lemma switchToSepolia_traces (a : Adapter) (eth : Ethereum) (s : Session) :
  let tr := snd (run a (switchToSepolia (Some eth) Return) s) in
  let switch := Requested (request_wallet_switchEthereumChain sepolia_chainId_hex) in
  let add := Requested (request_wallet_addEthereumChain sepolia_params) in
  (tr = [switch] /\
   exists u, a (request_wallet_switchEthereumChain sepolia_chainId_hex) = Fulfilled u) \/
  (tr = [switch; Notified error "Failed to switch to Sepolia network"] /\
   exists e, a (request_wallet_switchEthereumChain sepolia_chainId_hex) = Rejected e /\
             Js.code e <> Some 4902) \/
  ((tr = [switch; add] \/
    tr = [switch; add; Notified error "Failed to add Sepolia network"]) /\
   exists e, a (request_wallet_switchEthereumChain sepolia_chainId_hex) = Rejected e /\
             Js.code e = Some 4902).
Proof.
  intros tr switch add. subst tr switch add. rewrite switchToSepolia_run.
  cbn [snd].
  destruct (a (request_wallet_switchEthereumChain sepolia_chainId_hex))
    as [u | e]; [left; eauto | right].
  destruct (Js.code_is e 4902) eqn:Hcode.
  - right. apply code_is_iff in Hcode. split; [ | eauto].
    destruct (a (request_wallet_addEthereumChain sepolia_params)); auto.
  - left. split; [reflexivity | ]. exists e. split; [reflexivity | ].
    intros H. apply code_is_iff in H. congruence.
Qed.

(** X4.  When the wallet grants an empty account list, [connectWallet()]
    stops after that one request: the session is untouched and nothing is
    notified or logged. *)
Theorem connectWallet_no_account (a : Adapter) (eth : Ethereum) (s : Session) :
  a (send_eth_requestAccounts (new_BrowserProvider eth)) = Fulfilled [] ->
  run a (connectWallet (Some eth) Return) s =
  (s, [Requested (send_eth_requestAccounts (new_BrowserProvider eth))]).
Proof.
  intros Haccounts. rewrite connectWallet_run, Haccounts. reflexivity.
Qed.

Lemma connectWallet_no_account_witness :
  locked_wallet (send_eth_requestAccounts provider0) = Fulfilled [] /\
  run locked_wallet (connectWallet (Some wallet0) Return) connected0 =
  (connected0, [Requested (send_eth_requestAccounts provider0)]).
Proof.
  split; [reflexivity | ].
  apply (connectWallet_no_account locked_wallet wallet0 connected0).
  reflexivity.
Defined.




(** X7.  The wallet calls of a [connectWallet()] call are an initial part of
    one fixed sequence: account request, signer, network, switch request,
    add-network request.  No call is repeated and none is made out of
    order. *)
Theorem connectWallet_request_order (a : Adapter) (eth : Ethereum) (s : Session) :
  exists n,
    (1 <= n)%nat /\
    requests (snd (run a (connectWallet (Some eth) Return) s)) =
    firstn n (connect_protocol eth).
Proof.
  rewrite connectWallet_run.
  destruct (a (send_eth_requestAccounts _)) as [[ | account0 others] | reason];
    try (exists 1%nat; split; [lia | reflexivity]).
  destruct (a (getSigner _)) as [sg | reason];
    try (exists 2%nat; split; [lia | reflexivity]).
  destruct (a (getNetwork _)) as [net | reason];
    try (exists 3%nat; split; [lia | reflexivity]).
  destruct (Js.strict_neq _ _);
    try (exists 3%nat; split; [lia | reflexivity]).
  cbn [snd requests].
  destruct (switchToSepolia_traces a eth s)
    as [[Htr _] | [[Htr _] | [[Htr | Htr] _]]]; rewrite Htr.
  - exists 4%nat. split; [lia | reflexivity].
  - exists 4%nat. split; [lia | reflexivity].
  - exists 5%nat. split; [lia | reflexivity].
  - exists 5%nat. split; [lia | reflexivity].
Qed.

(** X8.  [switchToSepolia()] asks the wallet to add a chain only after the
    switch request was rejected with code 4902, and then only the Sepolia
    descriptor; it never notifies a success and notifies at most one
    error. *)
Theorem switchToSepolia_add_only_after_4902 (a : Adapter) (eth : Ethereum)
    (s : Session) :
  let tr := snd (run a (switchToSepolia (Some eth) Return) s) in
  (forall params,
      In (Requested (request_wallet_addEthereumChain params)) tr ->
      params = sepolia_params /\
      exists e,
        a (request_wallet_switchEthereumChain sepolia_chainId_hex) = Rejected e /\
        Js.code e = Some 4902) /\
  notifications success tr = [] /\
  (List.length (notifications error tr) <= 1)%nat.
Proof.
  intros tr. subst tr.
  destruct (switchToSepolia_traces a eth s)
    as [[Htr _] | [[Htr _] | [[Htr | Htr] He]]]; rewrite Htr;
    cbn [In notifications List.length];
    (split; [ | split; [reflexivity | lia]]);
    intros params Hin;
    repeat match goal with
           | H : _ \/ _ |- _ => destruct H as [H | H]
           | H : False |- _ => destruct H
           | H : Requested _ = Requested _ |- _ => injection H as H
           | H : Notified _ _ = Requested _ |- _ => discriminate H
           | H : request_wallet_switchEthereumChain _ =
                 request_wallet_addEthereumChain _ |- _ => discriminate H
           end;
    (split; [congruence | exact He]).
Qed.

Lemma switchToSepolia_add_only_after_4902_witness :
  In (Requested (request_wallet_addEthereumChain sepolia_params))
     (snd (run mainnet_wallet (switchToSepolia (Some wallet0) Return) initial)) /\
  exists e,
    mainnet_wallet (request_wallet_switchEthereumChain sepolia_chainId_hex) =
      Rejected e /\ Js.code e = Some 4902.
Proof.
  assert (Hin : In (Requested (request_wallet_addEthereumChain sepolia_params))
                   (snd (run mainnet_wallet
                             (switchToSepolia (Some wallet0) Return) initial)))
    by (right; left; reflexivity).
  split; [exact Hin | ].
  apply (proj1 (switchToSepolia_add_only_after_4902 mainnet_wallet wallet0 initial)
               sepolia_params Hin).
Defined.

(** ** [autoConnect] *)



(** ** The chain id on the wire *)

Lemma hex_digit_hex_char (d : Z) :
  0 <= d < 16 -> Js.hex_digit (Js.hex_char d) = Some d.
Proof.
  intros Hd.
  assert (H : d = 0 \/ d = 1 \/ d = 2 \/ d = 3 \/ d = 4 \/ d = 5 \/ d = 6 \/
              d = 7 \/ d = 8 \/ d = 9 \/ d = 10 \/ d = 11 \/ d = 12 \/
              d = 13 \/ d = 14 \/ d = 15) by lia.
  repeat (destruct H as [-> | H]; [reflexivity | ]). subst d. reflexivity.
Qed.

(** Reading back the digits written for [n] appends them to what was read. *)
Lemma read_hex_hex_digits (fuel : nat) :
  forall n rest,
    0 <= n < 16 ^ Z.of_nat (S fuel) ->
    exists k, 0 <= k /\
      forall acc,
        Js.read_hex acc (Js.hex_digits (S fuel) n rest) =
        Js.read_hex
          (Some (16 ^ k * match acc with Some v => v | None => 0 end + n)) rest.
Proof.
  induction fuel as [ | fuel IH]; intros n rest Hn;
    assert (Hmod : 0 <= n mod 16 < 16) by (apply Z.mod_pos_bound; lia);
    assert (Hsplit : n = 16 * (n / 16) + n mod 16) by (apply Z.div_mod; lia);
    cbn [Js.hex_digits]; destruct (n / 16 =? 0) eqn:Hq.
  - apply Z.eqb_eq in Hq. exists 1. split; [lia | ]. intros acc.
    cbn [Js.read_hex]. rewrite (hex_digit_hex_char _ Hmod).
    f_equal. f_equal. change (16 ^ 1) with 16. lia.
  - apply Z.eqb_neq in Hq. exfalso. apply Hq.
    apply Z.div_small. change (16 ^ Z.of_nat 1) with 16 in Hn. lia.
  - apply Z.eqb_eq in Hq. exists 1. split; [lia | ]. intros acc.
    cbn [Js.read_hex]. rewrite (hex_digit_hex_char _ Hmod).
    f_equal. f_equal. change (16 ^ 1) with 16. lia.
  - assert (Hdiv : 0 <= n / 16 < 16 ^ Z.of_nat (S fuel)).
    { split; [apply Z.div_pos; lia | ].
      apply Z.div_lt_upper_bound; [lia | ].
      rewrite (Nat2Z.inj_succ (S fuel)), Z.pow_succ_r in Hn by lia. lia. }
    destruct (IH (n / 16) (String (Js.hex_char (n mod 16)) rest) Hdiv)
      as (k & Hk & Hread).
    exists (k + 1). split; [lia | ]. intros acc.
    rewrite Hread. cbn [Js.read_hex]. rewrite (hex_digit_hex_char _ Hmod).
    f_equal. f_equal. rewrite Z.pow_add_r by lia. change (16 ^ 1) with 16.
    remember (16 ^ k) as P. remember (n / 16) as q. remember (n mod 16) as r.
    rewrite Hsplit. ring.
Qed.

Lemma log2_fuel (n : Z) : 0 <= n -> n < 16 ^ Z.of_nat (S (Z.to_nat (Z.log2 n))).
Proof.
  intros Hn.
  destruct (Z.eq_dec n 0) as [-> | Hpos]; [reflexivity | ].
  rewrite Nat2Z.inj_succ, Z2Nat.id by apply Z.log2_nonneg.
  apply Z.lt_le_trans with (2 ^ Z.succ (Z.log2 n)).
  - apply Z.log2_spec. lia.
  - apply Z.pow_le_mono_l. lia.
Qed.

(** X10.  What [n.toString(16)] writes behind ["0x"], [parseInt(_, 16)] reads
    back as [Number(n)]: the chain id the component sends to the wallet is
    the one its [chainChanged] listener compares with. *)
Theorem parseInt16_toString16 (n : Z) :
  0 <= n -> Js.parseInt16 ("0x" ++ Js.toString16 n) = Js.of_Z n.
Proof.
  intros Hn. unfold Js.parseInt16, Js.toString16.
  destruct (read_hex_hex_digits (Z.to_nat (Z.log2 n)) n "")
    as (k & _ & Hread); [split; [exact Hn | apply log2_fuel, Hn] | ].
  cbn [append Js.trim_start Js.strip_sign Js.strip_hex_prefix].
  change (Js.is_white_space "0") with false. cbv iota.
  cbn [Js.strip_sign Js.strip_hex_prefix].
  rewrite Hread. cbn [Js.read_hex]. rewrite Z.mul_0_r. reflexivity.
Qed.

Lemma parseInt16_toString16_witness :
  0 <= SEPOLIA_CHAIN_ID /\
  Js.parseInt16 ("0x" ++ Js.toString16 SEPOLIA_CHAIN_ID) =
  Js.of_Z SEPOLIA_CHAIN_ID.
Proof.
  split; [discriminate | ].
  apply (parseInt16_toString16 SEPOLIA_CHAIN_ID). discriminate.
Defined.

(** ** More invariants of the reachable states *)

(** X11.  In every reachable state the session holds a provider exactly when
    it holds a signer, and exactly when it is connected: a disconnected
    session keeps no handle. *)
Theorem handles_iff_connected (w : System) :
  reachable w ->
  (present (provider (session w)) <-> isConnected (session w) = true) /\
  (present (signer (session w)) <-> isConnected (session w) = true).
Proof.
  intros Hw. destruct (reachable_stable w Hw) as [Hc _].
  unfold coherent, present in *.
  destruct (isConnected (session w)).
  - destruct Hc as (_ & _ & Hp & Hs). tauto.
  - destruct Hc as [Hp Hs]. rewrite Hp, Hs.
    split; split; intros H; congruence.
Qed.

Lemma handles_iff_connected_witness :
  reachable connecting0 /\
  (present (provider (session connecting0)) <->
   isConnected (session connecting0) = true).
Proof.
  assert (Hr : reachable connecting0)
    by (apply call_connectWallet_reachable, settle_oldest_reachable,
          reachable_mount).
  split; [exact Hr | ].
  exact (proj1 (handles_iff_connected connecting0 Hr)).
Defined.

Lemma connectWallet_chain_clean (ethereum : option Ethereum) :
  keeps chain_cell_clean (fun s => s) (connectWallet ethereum Return).
Proof.
  destruct ethereum as [eth | ]; simpl; [ | auto].
  split; [auto | ]. intros [[ | account0 rest] | e]; simpl; auto.
  split; [auto | ]. intros [sg | e]; simpl; auto.
  split; [auto | ]. intros [net | e]; simpl; auto.
  destruct (Js.strict_neq _ _) eqn:Hnet.
  - exact (switchToSepolia_keeps chain_cell_clean (Some eth)
             (perform (toast error "Please switch to Sepolia Testnet."))
             (fun s H => H)).
  - apply strict_neq_Finite_false in Hnet. simpl. intros s _.
    right. simpl. rewrite Hnet. reflexivity.
Qed.

Lemma entry_chain_clean (t : Task) :
  entry t -> keeps chain_cell_clean (fun s => s) t.
Proof.
  destruct 1 as [ethereum | | ethereum | accounts | chainIdHex].
  - apply connectWallet_chain_clean.
  - simpl. intros s _. left. reflexivity.
  - apply switchToSepolia_keeps. auto.
  - destruct accounts as [ | account0 rest]; simpl.
    + intros s _. left. reflexivity.
    + intros s Hs. exact Hs.
  - unfold handleChainChanged.
    destruct (Js.strict_neq _ _) eqn:Hid; simpl.
    + intros s _. left. reflexivity.
    + apply strict_neq_Finite_false in Hid. intros s _. right. simpl.
      rewrite Hid. reflexivity.
Qed.

Lemma autoConnect_chain_clean (ethereum : option Ethereum) :
  keeps chain_cell_clean (fun s => s) (autoConnect ethereum).
Proof.
  destruct ethereum as [eth | ]; simpl; [ | auto].
  split; [auto | ]. intros [[ | account0 rest] | e]; simpl; auto.
  apply (connectWallet_chain_clean (Some eth)).
Qed.

Lemma reachable_chain_clean (w : System) :
  reachable w -> stable chain_cell_clean w.
Proof.
  induction 1 as [ethereum | w w' _ IH Hstep].
  - apply spawn_stable; auto using autoConnect_chain_clean.
    left. reflexivity.
  - destruct IH as [Hs Hf].
    destruct Hstep as [t w Ht | s before p after h outcome]; simpl in *.
    + apply spawn_stable; auto using entry_chain_clean.
    + apply Forall_app in Hf. destruct Hf as [Hb Hpa].
      inversion Hpa as [ | p' after' Hp Ha]; subst.
      apply spawn_stable; auto.
Qed.

(** X12.  In every reachable state the [chainId] cell is empty or holds
    11155111: an id the [chainChanged] listener stores and finds foreign, or
    unreadable, is cleared before anything else can observe it. *)
Theorem chainId_never_foreign (w : System) :
  reachable w ->
  chainId (session w) = None \/
  chainId (session w) = Some (Js.Finite SEPOLIA_CHAIN_ID).
Proof.
  intros Hw. exact (proj1 (reachable_chain_clean w Hw)).
Qed.

Lemma chainId_never_foreign_witness :
  reachable connected_system0 /\
  (chainId (session connected_system0) = None \/
   chainId (session connected_system0) = Some (Js.Finite SEPOLIA_CHAIN_ID)).
Proof.
  split; [exact connected_system0_reachable | ].
  exact (chainId_never_foreign connected_system0 connected_system0_reachable).
Defined.

(** ** Interrupted connection attempts *)




